(** * Verification of the 1inch backend test service

    Shallow embedding of
    - [src/src/uniswap/uniswap.service.ts] ([UniswapService]: pair address,
      swap output, reserve cache with coalescing and generation guard),
    - [src/src/gas-price/gas-price.service.ts] ([GasPriceService]: fee tiers
      and the fee cache),
    - [src/src/eth/eth.service.ts], second [EthService] (reconnect backoff).

    TypeScript [bigint] values are modelled as [Z]; bigint division [/]
    truncates toward zero and is modelled by [Z.quot].  Thrown errors are
    modelled by the [Throw] constructor of [result], carrying the message. *)

From Stdlib Require Import ZArith Lia Ascii String.
From stdpp Require Import base gmap strings list.

Open Scope Z_scope.

(** Outcome of a TypeScript function that may [throw new Error(msg)]. *)
Inductive result (A : Type) : Type :=
| Ok (a : A)
| Throw (msg : string).
Arguments Ok {A} a.
Arguments Throw {A} msg.

(* ------------------------------------------------------------------ *)
(** ** Uniswap: pure functions *)

Module Uniswap.

(** [UNISWAP_V2_FACTORY] and [UNISWAP_V2_INIT_CODE]. *)
Definition UNISWAP_V2_FACTORY : string :=
  "0x5C69bEe701ef814a2B6a3EDD4B1652CB9cc5aA6f".
Definition UNISWAP_V2_INIT_CODE : string :=
  "0x96e8ac4277198ff8b6f785478aa9a39f403cb768dd02cbee326c3e7da348845f".

(** [getAmountOut(amountIn, reserveIn, reserveOut)], bigint arithmetic. *)
Definition getAmountOut (amountIn reserveIn reserveOut : Z) : result Z :=
  if amountIn <=? 0 then Throw "INSUFFICIENT_INPUT_AMOUNT"
  else if (reserveIn <=? 0) || (reserveOut <=? 0) then Throw "INSUFFICIENT_LIQUIDITY"
  else
    let amountInWithFee := amountIn * 997 in
    let numerator := amountInWithFee * reserveOut in
    let denominator := reserveIn * 1000 + amountInWithFee in
    Ok (Z.quot numerator denominator).

(** [String.prototype.toLowerCase] on the ASCII characters of an address. *)
Definition lowerAscii (c : ascii) : ascii :=
  let n := nat_of_ascii c in
  if (65 <=? n)%nat && (n <=? 90)%nat then ascii_of_nat (n + 32) else c.

Fixpoint toLowerCase (s : string) : string :=
  match s with
  | EmptyString => EmptyString
  | String c s' => String (lowerAscii c) (toLowerCase s')
  end.

(** JavaScript [<] on strings: lexicographic on character codes. *)
Definition js_lt (a b : string) : bool := String.ltb a b.

(** [sortTokens(tokenA, tokenB)]: compares the lower-cased addresses and
    returns the original strings in sorted order. *)
Definition sortTokens (tokenA tokenB : string) : result (string * string) :=
  let addressA := toLowerCase tokenA in
  let addressB := toLowerCase tokenB in
  if String.eqb addressA addressB then Throw "IDENTICAL_ADDRESSES"
  else if js_lt addressA addressB then Ok (tokenA, tokenB) else Ok (tokenB, tokenA).

Section PairAddress.
(** The [ethers] primitives used by [computePairAddress]: they are library
    code, so they are kept abstract (each may reject its input). *)
Variable solidityPacked : string -> string -> result string.
Variable keccak256 : string -> string.
Variable getCreate2Address : string -> string -> string -> result string.

(** [computePairAddress(tokenA, tokenB)]. *)
Definition computePairAddress (tokenA tokenB : string) : result string :=
  match sortTokens tokenA tokenB with
  | Throw m => Throw m
  | Ok (token0, token1) =>
      match solidityPacked token0 token1 with
      | Throw m => Throw m
      | Ok packed =>
          getCreate2Address UNISWAP_V2_FACTORY (keccak256 packed) UNISWAP_V2_INIT_CODE
      end
  end.
End PairAddress.

End Uniswap.

(* ------------------------------------------------------------------ *)
(** ** Gas price service *)

Module GasPrice.

(** [GasPriceTier]; the DTO holds [x.toString()] of each bigint, modelled by
    the bigint value itself. *)
Record GasPriceTier := {
  maxPriorityFeePerGas : Z;
  maxFeePerGas : Z;
}.

(** [GasPriceResponse]. *)
Record GasPriceResponse := {
  baseFee : Z;
  low : GasPriceTier;
  medium : GasPriceTier;
  high : GasPriceTier;
  instant : GasPriceTier;
}.

(** [GasPriceCache]. *)
Record GasPriceCache := {
  data : GasPriceResponse;
  updatedAt : Z;
}.

Record TierOptions := { pMult : Z; pDiv : Z; baseBuffer : Z }.

(** [MIN_PRIORITY_FEE] (1.5 Gwei) and [TIERS]. *)
Definition MIN_PRIORITY_FEE : Z := 1500000000.
Definition TIERS_low : TierOptions := {| pMult := 100; pDiv := 100; baseBuffer := 110 |}.
Definition TIERS_medium : TierOptions := {| pMult := 120; pDiv := 100; baseBuffer := 125 |}.
Definition TIERS_high : TierOptions := {| pMult := 150; pDiv := 100; baseBuffer := 150 |}.
Definition TIERS_instant : TierOptions := {| pMult := 200; pDiv := 100; baseBuffer := 200 |}.

(** The service state: the configured staleness window and the cache. *)
Record GasPriceService := {
  stalenessMs : Z;
  cache : option GasPriceCache;
}.

(** [calculateTier(baseFee, priorityFeeBase, options)]. *)
Definition calculateTier (baseFee' priorityFeeBase : Z) (options : TierOptions) : GasPriceTier :=
  let priorityFee := Z.quot (priorityFeeBase * pMult options) (pDiv options) in
  let bufferedBaseFee := Z.quot (baseFee' * baseBuffer options) 100 in
  let maxFeePerGas' := bufferedBaseFee + priorityFee in
  {| maxPriorityFeePerGas := priorityFee; maxFeePerGas := maxFeePerGas' |}.

(** [updateGasPrice(baseFee, suggestedPriorityFee)]; [now] is [Date.now()]. *)
Definition updateGasPrice (now baseFee' suggestedPriorityFee : Z) (s : GasPriceService)
  : GasPriceService :=
  let anchorPriorityFee :=
    if suggestedPriorityFee >? MIN_PRIORITY_FEE then suggestedPriorityFee
    else MIN_PRIORITY_FEE in
  {| stalenessMs := stalenessMs s;
     cache := Some {|
       data := {| baseFee := baseFee';
                  low := calculateTier baseFee' anchorPriorityFee TIERS_low;
                  medium := calculateTier baseFee' anchorPriorityFee TIERS_medium;
                  high := calculateTier baseFee' anchorPriorityFee TIERS_high;
                  instant := calculateTier baseFee' anchorPriorityFee TIERS_instant |};
       updatedAt := now |} |}.

(** [isCacheStale()]; [now] is [Date.now()]. *)
Definition isCacheStale (now : Z) (s : GasPriceService) : bool :=
  match cache s with
  | None => true
  | Some c => now - updatedAt c >? stalenessMs s
  end.

(** [getGasPrice()]: the staleness check only logs a warning. *)
Definition getGasPrice (now : Z) (s : GasPriceService) : result GasPriceResponse :=
  match cache s with
  | None => Throw "Gas price data not yet available. Waiting for first block."
  | Some c =>
      let _ := isCacheStale now s in
      Ok (data c)
  end.

End GasPrice.

(* ------------------------------------------------------------------ *)
(** ** Eth service: reconnect with exponential backoff *)

Module Eth.

Definition MAX_BACKOFF_MS : Z := 30000.
Definition BASE_BACKOFF_MS : Z := 1000.

(** The fields of the second [EthService] that the reconnect logic uses.
    [provider] is the current WebSocket provider (a handle number, [None]
    for [undefined]); [scheduledBackoff] is the delay passed to the
    [setTimeout] of the reconnect in flight, if any. *)
Record EthState := {
  provider : option nat;
  isShuttingDown : bool;
  isReconnecting : bool;
  reconnectAttempts : Z;
  scheduledBackoff : option Z;
  nextProvider : nat;
}.

(** [connect()]: a fresh provider; its listeners are set up. *)
Definition connect (s : EthState) : EthState :=
  {| provider := Some (nextProvider s);
     isShuttingDown := isShuttingDown s;
     isReconnecting := isReconnecting s;
     reconnectAttempts := reconnectAttempts s;
     scheduledBackoff := scheduledBackoff s;
     nextProvider := S (nextProvider s) |}.

(** [handleReconnect()], up to the [setTimeout(..., backoffMs)]. *)
Definition handleReconnect (s : EthState) : EthState :=
  if isShuttingDown s || isReconnecting s then s
  else
    let backoffMs := Z.min MAX_BACKOFF_MS (BASE_BACKOFF_MS * 2 ^ reconnectAttempts s) in
    {| provider := None;
       isShuttingDown := isShuttingDown s;
       isReconnecting := true;
       reconnectAttempts := reconnectAttempts s + 1;
       scheduledBackoff := Some backoffMs;
       nextProvider := nextProvider s |}.

(** The [setTimeout] callback of [handleReconnect]; the boolean says whether
    the reconnect listeners were run. *)
Definition reconnectTimerFires (s : EthState) : EthState * bool :=
  let s1 := {| provider := provider s;
               isShuttingDown := isShuttingDown s;
               isReconnecting := false;
               reconnectAttempts := reconnectAttempts s;
               scheduledBackoff := None;
               nextProvider := nextProvider s |} in
  if isShuttingDown s1 then (s1, false) else (connect s1, true).

(** The ['block'] listener: resets the backoff counter (the gas price
    fetch it starts does not touch this state). *)
Definition onBlock (s : EthState) : EthState :=
  {| provider := provider s;
     isShuttingDown := isShuttingDown s;
     isReconnecting := isReconnecting s;
     reconnectAttempts := 0;
     scheduledBackoff := scheduledBackoff s;
     nextProvider := nextProvider s |}.

(** [onModuleDestroy()]. *)
Definition onModuleDestroy (s : EthState) : EthState :=
  {| provider := None;
     isShuttingDown := true;
     isReconnecting := isReconnecting s;
     reconnectAttempts := reconnectAttempts s;
     scheduledBackoff := scheduledBackoff s;
     nextProvider := nextProvider s |}.

Inductive EthEvent :=
| ProviderError          (* the ['error'] listener *)
| NewBlock               (* the ['block'] listener *)
| TimerFires             (* the reconnect [setTimeout] fires *)
| Destroy.               (* [onModuleDestroy] *)

Definition ethStep (s : EthState) (e : EthEvent) : EthState :=
  match e with
  | ProviderError => handleReconnect s
  | NewBlock => onBlock s
  | TimerFires => fst (reconnectTimerFires s)
  | Destroy => onModuleDestroy s
  end.

(** State after [onModuleInit()]. *)
Definition ethInit : EthState :=
  connect {| provider := None; isShuttingDown := false; isReconnecting := false;
             reconnectAttempts := 0; scheduledBackoff := None; nextProvider := 0 |}.

(** Runs the events in order and collects the backoff delay of every
    reconnect that was scheduled. *)
Fixpoint runDelays (s : EthState) (es : list EthEvent) : list Z :=
  match es with
  | [] => []
  | e :: es' =>
      let s' := ethStep s e in
      let here :=
        match e, isShuttingDown s || isReconnecting s, scheduledBackoff s' with
        | ProviderError, false, Some d => [d]
        | _, _, _ => []
        end in
      here ++ runDelays s' es'
  end.

End Eth.

(* ------------------------------------------------------------------ *)
(** ** Uniswap service: reserve cache, coalescing and generation guard *)

Module Reserves.
Import Uniswap.

(** [ReservesCache]. *)
Record ReservesCache := {
  reserve0 : Z;
  reserve1 : Z;
  lastUpdated : Z;
}.

(** A caller of [getReserves] suspended on [await fetchPromise]: request
    number, [fromToken], [toToken]. *)
Definition Waiter : Type := nat * string * string.

(** State of the promise returned by [fetchAndSubscribe(...).finally(...)]. *)
Inductive PromiseState :=
| PPending (waiters : list Waiter)
| PSettled (outcome : result ReservesCache).

(** One call of [fetchAndSubscribe]: its pair, the [generation] it captured,
    whether [getProvider()] returned a provider, and its promise. *)
Record FetchRec := {
  f_pair : string;
  f_gen : nat;
  f_provider : bool;
  f_state : PromiseState;
}.

(** The fields of [UniswapService], the promises of the fetches it started
    (keyed by creation order), whether [ethService.getProvider()] currently
    returns a provider, and the settled [getReserves] calls. *)
Record UState := {
  reservesCache : gmap string ReservesCache;
  pendingFetches : gmap string nat;
  pairContracts : gset string;
  providerGeneration : nat;
  promises : gmap nat FetchRec;
  nextFetch : nat;
  providerAvailable : bool;
  responses : list (nat * result (Z * Z));
}.

Definition initUState : UState :=
  {| reservesCache := ∅; pendingFetches := ∅; pairContracts := ∅;
     providerGeneration := 0; promises := ∅; nextFetch := 0;
     providerAvailable := true; responses := [] |}.

(** [mapReserves(reserves, fromToken, toToken)], as [(reserveIn, reserveOut)]. *)
Definition mapReserves (reserves : ReservesCache) (fromToken toToken : string)
  : result (Z * Z) :=
  match sortTokens fromToken toToken with
  | Throw m => Throw m
  | Ok (token0, _) =>
      let isFromToken0 := String.eqb (toLowerCase fromToken) (toLowerCase token0) in
      Ok (if isFromToken0 then reserve0 reserves else reserve1 reserves,
          if isFromToken0 then reserve1 reserves else reserve0 reserves)
  end.

(** What a suspended caller receives when the fetch promise settles. *)
Definition answer (o : result ReservesCache) (w : Waiter) : nat * result (Z * Z) :=
  let '(rid, fromToken, toToken) := w in
  (rid, match o with
        | Ok r => mapReserves r fromToken toToken
        | Throw m => Throw m
        end).

Section Steps.
Context (s : UState).

Definition withCache (c : gmap string ReservesCache) : UState :=
  {| reservesCache := c; pendingFetches := pendingFetches s; pairContracts := pairContracts s;
     providerGeneration := providerGeneration s; promises := promises s;
     nextFetch := nextFetch s; providerAvailable := providerAvailable s;
     responses := responses s |}.

(** [getReserves(pairAddress, fromToken, toToken)] called as request [rid],
    up to its [await]. *)
Definition getReserves (rid : nat) (pairAddress fromToken toToken : string) : UState :=
  match reservesCache s !! pairAddress with
  | Some cached =>
      (* cache HIT *)
      {| reservesCache := reservesCache s; pendingFetches := pendingFetches s;
         pairContracts := pairContracts s; providerGeneration := providerGeneration s;
         promises := promises s; nextFetch := nextFetch s;
         providerAvailable := providerAvailable s;
         responses := responses s ++ [(rid, mapReserves cached fromToken toToken)] |}
  | None =>
      match pendingFetches s !! pairAddress with
      | Some id =>
          (* joining pending fetch *)
          match promises s !! id with
          | Some f =>
              match f_state f with
              | PPending ws =>
                  {| reservesCache := reservesCache s; pendingFetches := pendingFetches s;
                     pairContracts := pairContracts s;
                     providerGeneration := providerGeneration s;
                     promises := <[id := {| f_pair := f_pair f; f_gen := f_gen f;
                                            f_provider := f_provider f;
                                            f_state := PPending (ws ++ [(rid, fromToken, toToken)]) |}]>
                                   (promises s);
                     nextFetch := nextFetch s; providerAvailable := providerAvailable s;
                     responses := responses s |}
              | PSettled o =>
                  {| reservesCache := reservesCache s; pendingFetches := pendingFetches s;
                     pairContracts := pairContracts s;
                     providerGeneration := providerGeneration s;
                     promises := promises s; nextFetch := nextFetch s;
                     providerAvailable := providerAvailable s;
                     responses := responses s ++ [answer o (rid, fromToken, toToken)] |}
              end
          | None => s
          end
      | None =>
          (* cache MISS: fetchAndSubscribe runs to its first await, capturing
             [generation] and the provider; then pendingFetches.set *)
          let id := nextFetch s in
          {| reservesCache := reservesCache s;
             pendingFetches := <[pairAddress := id]> (pendingFetches s);
             pairContracts := pairContracts s;
             providerGeneration := providerGeneration s;
             promises := <[id := {| f_pair := pairAddress; f_gen := providerGeneration s;
                                    f_provider := providerAvailable s;
                                    f_state := PPending [(rid, fromToken, toToken)] |}]>
                           (promises s);
             nextFetch := S id;
             providerAvailable := providerAvailable s;
             responses := responses s |}
      end
  end.

(** The rest of [fetchAndSubscribe] once [pairContract.getReserves()]
    settles with [rpc] at time [now]: the new cache and subscriptions and
    the outcome of the call. *)
Definition fetchAndSubscribeRest (f : FetchRec) (rpc : result (Z * Z)) (now : Z)
  : gmap string ReservesCache * gset string * result ReservesCache :=
  if negb (f_provider f) then
    (reservesCache s, pairContracts s, Throw "WebSocket provider not available")
  else
    match rpc with
    | Throw m => (reservesCache s, pairContracts s, Throw m)
    | Ok (r0, r1) =>
        let reserves := {| reserve0 := r0; reserve1 := r1; lastUpdated := now |} in
        if negb (Nat.eqb (f_gen f) (providerGeneration s)) then
          (* provider reconnected during fetch: discard *)
          (reservesCache s, pairContracts s, Ok reserves)
        else
          let cache' := <[f_pair f := reserves]> (reservesCache s) in
          let contracts' :=
            if decide (f_pair f ∈ pairContracts s) then pairContracts s
            else {[ f_pair f ]} ∪ pairContracts s in
          (cache', contracts', Ok reserves)
    end.

(** Fetch number [id] settles: the body of [fetchAndSubscribe] finishes,
    then the [.finally] callback runs [pendingFetches.delete(pairAddress)],
    then every suspended caller resumes. *)
Definition settleFetch (id : nat) (rpc : result (Z * Z)) (now : Z) : UState :=
  match promises s !! id with
  | Some f =>
      match f_state f with
      | PPending ws =>
          let '(cache', contracts', o) := fetchAndSubscribeRest f rpc now in
          {| reservesCache := cache';
             pendingFetches := delete (f_pair f) (pendingFetches s);
             pairContracts := contracts';
             providerGeneration := providerGeneration s;
             promises := <[id := {| f_pair := f_pair f; f_gen := f_gen f;
                                    f_provider := f_provider f;
                                    f_state := PSettled o |}]> (promises s);
             nextFetch := nextFetch s;
             providerAvailable := providerAvailable s;
             responses := responses s ++ map (answer o) ws |}
      | PSettled _ => s
      end
  | None => s
  end.

(** [invalidateSubscriptions()], the reconnect listener. *)
Definition invalidateSubscriptions : UState :=
  {| reservesCache := ∅; pendingFetches := ∅; pairContracts := ∅;
     providerGeneration := S (providerGeneration s);
     promises := promises s; nextFetch := nextFetch s;
     providerAvailable := providerAvailable s; responses := responses s |}.

(** The ['Sync'] listener of a subscribed pair contract. *)
Definition onSync (pairAddress : string) (r0 r1 now : Z) : UState :=
  if decide (pairAddress ∈ pairContracts s) then
    withCache (<[pairAddress := {| reserve0 := r0; reserve1 := r1; lastUpdated := now |}]>
                 (reservesCache s))
  else s.

(** [ethService.getProvider()] becomes defined or [undefined]. *)
Definition setProvider (b : bool) : UState :=
  {| reservesCache := reservesCache s; pendingFetches := pendingFetches s;
     pairContracts := pairContracts s; providerGeneration := providerGeneration s;
     promises := promises s; nextFetch := nextFetch s;
     providerAvailable := b; responses := responses s |}.

End Steps.

Inductive UEvent :=
| GetReserves (rid : nat) (pairAddress fromToken toToken : string)
| FetchSettles (id : nat) (rpc : result (Z * Z)) (now : Z)
| ProviderReconnected
| SyncEvent (pairAddress : string) (r0 r1 now : Z)
| ProviderAvailable (b : bool).

Definition uStep (s : UState) (e : UEvent) : UState :=
  match e with
  | GetReserves rid p a b => getReserves s rid p a b
  | FetchSettles id rpc now => settleFetch s id rpc now
  | ProviderReconnected => invalidateSubscriptions s
  | SyncEvent p r0 r1 now => onSync s p r0 r1 now
  | ProviderAvailable b => setProvider s b
  end.

Definition uRun (s : UState) (es : list UEvent) : UState := fold_left uStep es s.

(** Number of fetches for [pairAddress] still in flight that were started
    under the current generation (so are not abandoned). *)
Definition liveFetches (s : UState) (pairAddress : string) : nat :=
  length (List.filter (fun '(_, f) =>
                    match f_state f with
                    | PPending _ => String.eqb (f_pair f) pairAddress &&
                                    Nat.eqb (f_gen f) (providerGeneration s)
                    | PSettled _ => false
                    end) (map_to_list (promises s))).

End Reserves.

(* ------------------------------------------------------------------ *)
(** ** Swap quote endpoint: [UniswapService.getReturnAmount] and
       [UniswapController.getReturnAmount] *)

Module SwapEndpoint.
Import Uniswap.

(** JavaScript [String.prototype.includes]. *)
Fixpoint includes (s sub : string) : bool :=
  String.prefix sub s ||
  match s with
  | EmptyString => false
  | String _ s' => includes s' sub
  end.

Definition isDigit (c : ascii) : bool :=
  let n := nat_of_ascii c in (48 <=? n)%nat && (n <=? 57)%nat.

(** [POSITIVE_INT_REGEX.test(s)] for [/^[1-9]\d*$/]. *)
Definition positiveIntRegexTest (s : string) : bool :=
  match s with
  | EmptyString => false
  | String c rest =>
      let n := nat_of_ascii c in
      (49 <=? n)%nat && (n <=? 57)%nat && forallb isDigit (list_ascii_of_string rest)
  end.

(** Value of a string of decimal digits, most significant first. *)
Fixpoint decimalValueAcc (acc : Z) (s : string) : Z :=
  match s with
  | EmptyString => acc
  | String c s' => decimalValueAcc (acc * 10 + (Z.of_nat (nat_of_ascii c) - 48)) s'
  end.
Definition decimalValue (s : string) : Z := decimalValueAcc 0 s.

Section Service.
(** [computePairAddress] (with the [ethers] primitives fixed), the outcome of
    [await this.getReserves(pairAddress, fromToken, toToken)], and the
    [BigInt] builtin. *)
Variable pairAddressOf : string -> string -> result string.
Variable reservesOf : string -> string -> string -> result (Z * Z).
Variable BigInt : string -> result Z.

(** [UniswapService.getReturnAmount(fromToken, toToken, amountIn)]. *)
Definition getReturnAmount (fromToken toToken amountIn : string) : result Z :=
  match pairAddressOf fromToken toToken with
  | Throw m => Throw m
  | Ok pairAddress =>
      match reservesOf pairAddress fromToken toToken with
      | Throw m => Throw m
      | Ok (reserveIn, reserveOut) =>
          match BigInt amountIn with
          | Throw m => Throw m
          | Ok amountInBigInt => getAmountOut amountInBigInt reserveIn reserveOut
          end
      end
  end.
End Service.

(** What the controller answers: [{ amountOut }] or an [HttpException]. *)
Inductive HttpResult :=
| Http200 (amountOut : Z)
| HttpError (status : Z) (message : string).

(** The [catch] block of the controller, on [error.message]. *)
Definition mapServiceError (errorMessage : string) : HttpResult :=
  if String.eqb errorMessage "INSUFFICIENT_LIQUIDITY" then
    HttpError 422 "Insufficient liquidity in the pool"
  else if String.eqb errorMessage "INSUFFICIENT_INPUT_AMOUNT" then
    HttpError 400 "Input amount must be greater than zero"
  else if includes errorMessage "call revert" || includes errorMessage "CALL_EXCEPTION" then
    HttpError 404 "Pair does not exist for the given token addresses"
  else if includes errorMessage "provider not available" then
    HttpError 503 "Service is starting up, please try again"
  else HttpError 500 "Failed to calculate return amount".

Section Controller.
(** [ethers.utils.isAddress] and the service call. *)
Variable isAddress : string -> bool.
Variable service : string -> string -> string -> result Z.

(** [UniswapController.getReturnAmount(fromTokenAddress, toTokenAddress, amountIn)]. *)
Definition controllerGetReturnAmount (fromTokenAddress toTokenAddress amountIn : string)
  : HttpResult :=
  if negb (isAddress fromTokenAddress) then HttpError 400 "Invalid fromTokenAddress"
  else if negb (isAddress toTokenAddress) then HttpError 400 "Invalid toTokenAddress"
  else if String.eqb (toLowerCase fromTokenAddress) (toLowerCase toTokenAddress) then
    HttpError 400 "Identical token addresses"
  else if negb (positiveIntRegexTest amountIn) then
    HttpError 400 "amountIn must be a positive integer"
  else
    match service fromTokenAddress toTokenAddress amountIn with
    | Ok amountOut => Http200 amountOut
    | Throw errorMessage => mapServiceError errorMessage
    end.
End Controller.

End SwapEndpoint.

(* ------------------------------------------------------------------ *)
(** ** Block ingestion and the health indicator *)

Module Ingest.
Import GasPrice.

(** [EthService.fetchAndUpdateGasPrice(blockNumber)].  [provider] is
    [this.provider]; [rpc] is the outcome of the [Promise.all] of
    [getBlock] (a block or [null]; its [baseFeePerGas] a bigint or [null])
    and of [eth_maxPriorityFeePerGas] (a hex string); a rejection leaves
    the fee cache as it was (the caller only logs it). *)
Definition fetchAndUpdateGasPrice (BigInt : string -> result Z) (provider : option nat)
    (rpc : result (option (option Z) * string)) (now : Z) (g : GasPriceService)
  : GasPriceService :=
  match provider with
  | None => g
  | Some _ =>
      match rpc with
      | Throw _ => g
      | Ok (block, priorityFee) =>
          match block with
          | Some (Some baseFeePerGas) =>
              (* [block && block.baseFeePerGas]: [0n] is falsy *)
              if baseFeePerGas =? 0 then g
              else match BigInt priorityFee with
                   | Throw _ => g
                   | Ok p => updateGasPrice now baseFeePerGas p g
                   end
          | _ => g
          end
      end
  end.

(** One run of the ['block'] listener: the provider at that moment, the
    outcome of the two RPC calls and [Date.now()]. *)
Record BlockEvent := {
  bProvider : option nat;
  bRpc : result (option (option Z) * string);
  bNow : Z;
}.

(** The ['block'] listener applied to each block in turn. *)
Definition ingestRun (BigInt : string -> result Z) (evs : list BlockEvent)
    (g : GasPriceService) : GasPriceService :=
  fold_left (fun g' e => fetchAndUpdateGasPrice BigInt (bProvider e) (bRpc e) (bNow e) g')
    evs g.

(** [GasPriceService.getLastUpdateTimestamp()]. *)
Definition getLastUpdateTimestamp (g : GasPriceService) : option Z :=
  option_map updatedAt (cache g).

(** The details of the [eth_ws] indicator: [lastUpdate] ([None] for
    ['never'], else the timestamp shown as an ISO date) and
    [secondsSinceLastUpdate]. *)
Record HealthDetails := {
  lastUpdate : option Z;
  secondsSinceLastUpdate : option Z;
}.

(** [EthWsHealthIndicator.isHealthy()]; [now] is [Date.now()], [appStart] is
    [APP_START_TIME], [grace] is [GRACE_PERIOD_MS].  Unhealthy throws a
    [HealthCheckError]. *)
Definition isHealthy (now appStart grace : Z) (g : GasPriceService) : result HealthDetails :=
  let lastUpdate' := match getLastUpdateTimestamp g with Some t => t | None => 0 end in
  let isStale := isCacheStale now g in
  let timeSinceStart := now - appStart in
  let healthy := negb isStale || (timeSinceStart <? grace) in
  let details := {| lastUpdate := if lastUpdate' >? 0 then Some lastUpdate' else None;
                    secondsSinceLastUpdate :=
                      if lastUpdate' >? 0 then Some ((now - lastUpdate') / 1000) else None |} in
  if healthy then Ok details
  else Throw "Ethereum WebSocket is stale or disconnected".

End Ingest.

(* ================================================================== *)
(** * Properties *)

Module UniswapProofs.
Import Uniswap.

(** [getAmountOut] on positive inputs, as floor division. *)
Lemma getAmountOut_pos (a rI rO : Z) :
  0 < a -> 0 < rI -> 0 < rO ->
  getAmountOut a rI rO = Ok ((a * 997 * rO) / (rI * 1000 + a * 997)).
Proof.
  intros Ha HrI HrO. unfold getAmountOut.
  destruct (Z.leb_spec a 0); [lia|].
  destruct (Z.leb_spec rI 0); [lia|]. destruct (Z.leb_spec rO 0); [lia|].
  simpl. f_equal. apply Z.quot_div_nonneg; nia.
Qed.

(** C1: [getAmountOut] fails with [INSUFFICIENT_INPUT_AMOUNT] when
    [amountIn <= 0], with [INSUFFICIENT_LIQUIDITY] when a reserve is [<= 0],
    and otherwise returns
    [floor(amountIn * 997 * reserveOut / (reserveIn * 1000 + amountIn * 997))];
    on [1000, 10000, 10000] it returns 906. *)
Theorem getAmountOut_correct :
  (forall a rI rO : Z,
      (a <= 0 -> getAmountOut a rI rO = Throw "INSUFFICIENT_INPUT_AMOUNT") /\
      (0 < a -> (rI <= 0 \/ rO <= 0) -> getAmountOut a rI rO = Throw "INSUFFICIENT_LIQUIDITY") /\
      (0 < a -> 0 < rI -> 0 < rO ->
         getAmountOut a rI rO = Ok ((a * 997 * rO) / (rI * 1000 + a * 997)))) /\
  getAmountOut 1000 10000 10000 = Ok 906.
Proof.
  split; [|reflexivity].
  intros a rI rO. split; [|split].
  - intros Ha. unfold getAmountOut. destruct (Z.leb_spec a 0); [reflexivity|lia].
  - intros Ha Hr. unfold getAmountOut.
    destruct (Z.leb_spec a 0); [lia|].
    destruct (Z.leb_spec rI 0); [reflexivity|].
    destruct (Z.leb_spec rO 0); [reflexivity|lia].
  - apply getAmountOut_pos.
Qed.

(** C9: on positive inputs the quote is non-negative and strictly below
    [reserveOut]. *)
Theorem getAmountOut_below_reserve (a rI rO : Z) :
  0 < a -> 0 < rI -> 0 < rO ->
  exists out, getAmountOut a rI rO = Ok out /\ 0 <= out /\ out < rO.
Proof.
  intros Ha HrI HrO. rewrite (getAmountOut_pos a rI rO Ha HrI HrO).
  eexists; split; [reflexivity|split].
  - apply Z.div_pos; nia.
  - apply Z.div_lt_upper_bound; nia.
Qed.

Lemma getAmountOut_below_reserve_witness :
  exists out, getAmountOut 1000 10000 10000 = Ok out /\ 0 <= out /\ out < 10000.
Proof. apply (getAmountOut_below_reserve 1000 10000 10000); lia. Defined.

(** String order facts used for [sortTokens]. *)
Lemma js_lt_flip (a b : string) :
  a <> b -> js_lt b a = negb (js_lt a b).
Proof.
  intros Hne. unfold js_lt, String.ltb.
  rewrite (String.compare_antisym b a).
  destruct (String.compare a b) eqn:E; simpl; try reflexivity.
  apply String.compare_eq_iff in E. contradiction.
Qed.

Lemma sortTokens_sym (A B : string) : sortTokens A B = sortTokens B A.
Proof.
  unfold sortTokens. rewrite String.eqb_sym.
  destruct (String.eqb_spec (toLowerCase B) (toLowerCase A)) as [E|Hne]; [reflexivity|].
  rewrite (js_lt_flip (toLowerCase A) (toLowerCase B)) by congruence.
  destruct (js_lt (toLowerCase A) (toLowerCase B)); reflexivity.
Qed.

(** C7: [computePairAddress] does not depend on the order of its arguments
    and fails with [IDENTICAL_ADDRESSES] on tokens equal up to case; it is a
    function of its arguments (and the fixed [ethers] primitives) only. *)
Theorem computePairAddress_sym
  (solidityPacked : string -> string -> result string)
  (keccak256 : string -> string)
  (getCreate2Address : string -> string -> string -> result string) :
  forall A B : string,
    computePairAddress solidityPacked keccak256 getCreate2Address A B =
    computePairAddress solidityPacked keccak256 getCreate2Address B A /\
    (toLowerCase A = toLowerCase B ->
     computePairAddress solidityPacked keccak256 getCreate2Address A B =
     Throw "IDENTICAL_ADDRESSES").
Proof.
  intros A B. split.
  - unfold computePairAddress. rewrite sortTokens_sym. reflexivity.
  - intros E. unfold computePairAddress, sortTokens. rewrite E, String.eqb_refl.
    reflexivity.
Qed.

End UniswapProofs.

Module GasPriceProofs.
Import GasPrice.

Lemma anchor_is_max (p : Z) :
  (if p >? MIN_PRIORITY_FEE then p else MIN_PRIORITY_FEE) = Z.max p MIN_PRIORITY_FEE.
Proof. destruct (Z.gtb_spec p MIN_PRIORITY_FEE); lia. Qed.

Lemma calculateTier_floor (b a : Z) (o : TierOptions) :
  0 <= b -> 0 <= a -> 0 <= pMult o -> 0 < pDiv o -> 0 <= baseBuffer o ->
  calculateTier b a o =
  {| maxPriorityFeePerGas := a * pMult o / pDiv o;
     maxFeePerGas := b * baseBuffer o / 100 + a * pMult o / pDiv o |}.
Proof.
  intros. unfold calculateTier.
  rewrite !Z.quot_div_nonneg by nia. reflexivity.
Qed.

(** C4: [updateGasPrice] takes the anchor [max(suggestedPriorityFee,
    MIN_PRIORITY_FEE)] and stores, per tier, [priorityFee = anchor * pMult /
    pDiv] and [maxFee = baseFee * baseBuffer / 100 + priorityFee] (floor
    division) with the multipliers low {100,100,110}, medium {120,100,125},
    high {150,100,150}, instant {200,100,200}. *)
Theorem updateGasPrice_tiers (now b p : Z) (s : GasPriceService) :
  0 <= b -> 0 <= p ->
  let anchor := Z.max p MIN_PRIORITY_FEE in
  let tier pM pD bB := {| maxPriorityFeePerGas := anchor * pM / pD;
                          maxFeePerGas := b * bB / 100 + anchor * pM / pD |} in
  cache (updateGasPrice now b p s) =
  Some {| data := {| baseFee := b;
                     low := tier 100 100 110;
                     medium := tier 120 100 125;
                     high := tier 150 100 150;
                     instant := tier 200 100 200 |};
          updatedAt := now |}.
Proof.
  intros Hb Hp anchor tier. unfold updateGasPrice. rewrite anchor_is_max.
  assert (Ha : 0 <= anchor) by (unfold anchor, MIN_PRIORITY_FEE; lia).
  simpl. unfold TIERS_low, TIERS_medium, TIERS_high, TIERS_instant.
  rewrite !calculateTier_floor by (simpl; lia). reflexivity.
Qed.

Lemma updateGasPrice_tiers_witness :
  0 <= 30000000000 /\ 0 <= 1000000 /\
  cache (updateGasPrice 0 30000000000 1000000 {| stalenessMs := 30000; cache := None |}) =
  Some {| data := {| baseFee := 30000000000;
                     low := {| maxPriorityFeePerGas := 1500000000; maxFeePerGas := 34500000000 |};
                     medium := {| maxPriorityFeePerGas := 1800000000; maxFeePerGas := 39300000000 |};
                     high := {| maxPriorityFeePerGas := 2250000000; maxFeePerGas := 47250000000 |};
                     instant := {| maxPriorityFeePerGas := 3000000000; maxFeePerGas := 63000000000 |} |};
          updatedAt := 0 |}.
Proof.
  split; [lia|split; [lia|]].
  exact (updateGasPrice_tiers 0 30000000000 1000000 {| stalenessMs := 30000; cache := None |}
           ltac:(lia) ltac:(lia)).
Defined.

(** The FeeSnapshot invariant: priority and max fees non-decreasing from
    [low] to [instant]. *)
Definition tiersMonotone (r : GasPriceResponse) : Prop :=
  maxPriorityFeePerGas (low r) <= maxPriorityFeePerGas (medium r) /\
  maxPriorityFeePerGas (medium r) <= maxPriorityFeePerGas (high r) /\
  maxPriorityFeePerGas (high r) <= maxPriorityFeePerGas (instant r) /\
  maxFeePerGas (low r) <= maxFeePerGas (medium r) /\
  maxFeePerGas (medium r) <= maxFeePerGas (high r) /\
  maxFeePerGas (high r) <= maxFeePerGas (instant r).

Definition feeInv (s : GasPriceService) : Prop :=
  match cache s with
  | None => True
  | Some c => tiersMonotone (data c)
  end.

(** C5: after any update with [baseFee >= 0] (any suggested priority fee)
    the stored snapshot's tiers are non-decreasing in both fees, so every
    update establishes and preserves [feeInv]. *)
Theorem updateGasPrice_monotone (now b p : Z) (s : GasPriceService) :
  0 <= b -> feeInv s -> feeInv (updateGasPrice now b p s).
Proof.
  intros Hb _. unfold feeInv, updateGasPrice, tiersMonotone. simpl.
  unfold calculateTier, TIERS_low, TIERS_medium, TIERS_high, TIERS_instant. simpl.
  set (a := if p >? MIN_PRIORITY_FEE then p else MIN_PRIORITY_FEE).
  assert (Ha : 0 <= a) by (unfold a, MIN_PRIORITY_FEE; destruct (Z.gtb_spec p 1500000000); lia).
  rewrite !Z.quot_div_nonneg by nia.
  assert (P1 : a * 100 / 100 <= a * 120 / 100) by (apply Z.div_le_mono; nia).
  assert (P2 : a * 120 / 100 <= a * 150 / 100) by (apply Z.div_le_mono; nia).
  assert (P3 : a * 150 / 100 <= a * 200 / 100) by (apply Z.div_le_mono; nia).
  assert (B1 : b * 110 / 100 <= b * 125 / 100) by (apply Z.div_le_mono; nia).
  assert (B2 : b * 125 / 100 <= b * 150 / 100) by (apply Z.div_le_mono; nia).
  assert (B3 : b * 150 / 100 <= b * 200 / 100) by (apply Z.div_le_mono; nia).
  lia.
Qed.

Lemma updateGasPrice_monotone_witness :
  feeInv (updateGasPrice 0 30000000000 1000000 {| stalenessMs := 30000; cache := None |}).
Proof.
  apply (updateGasPrice_monotone 0 30000000000 1000000 {| stalenessMs := 30000; cache := None |});
    [lia | exact I].
Defined.

(** The fee cache after the block updates [(now, baseFee, suggested)] in order. *)
Definition applyUpdates (s : GasPriceService) (us : list (Z * Z * Z)) : GasPriceService :=
  fold_left (fun s' '(t, b, p) => updateGasPrice t b p s') us s.

Lemma applyUpdates_app_last (s : GasPriceService) us t b p :
  applyUpdates s (us ++ [(t, b, p)]) = updateGasPrice t b p (applyUpdates s us).
Proof. unfold applyUpdates. rewrite fold_left_app. reflexivity. Qed.

Lemma updateGasPrice_cache_indep (t b p : Z) (s1 s2 : GasPriceService) :
  cache (updateGasPrice t b p s1) = cache (updateGasPrice t b p s2).
Proof. reflexivity. Qed.

(** C6: before any update [getGasPrice] fails with the not-ready error;
    after updates it returns, at every time [now] (stale or not), the
    snapshot of the most recent update. *)
Theorem getGasPrice_latest (stal : Z) (us : list (Z * Z * Z)) (now : Z) :
  let s0 := {| stalenessMs := stal; cache := None |} in
  (us = [] ->
   getGasPrice now (applyUpdates s0 us) =
   Throw "Gas price data not yet available. Waiting for first block.") /\
  (forall us' t b p, us = us' ++ [(t, b, p)] ->
   exists c, cache (updateGasPrice t b p s0) = Some c /\
             getGasPrice now (applyUpdates s0 us) = Ok (data c)) /\
  (us <> [] -> isCacheStale now (applyUpdates s0 us) = true ->
   exists d, getGasPrice now (applyUpdates s0 us) = Ok d).
Proof.
  intros s0. split; [|split].
  - intros ->. reflexivity.
  - intros us' t b p ->. rewrite applyUpdates_app_last.
    eexists; split; [reflexivity|].
    unfold getGasPrice at 1. rewrite (updateGasPrice_cache_indep t b p _ s0). reflexivity.
  - intros Hne _. destruct us as [|u us] using rev_ind; [congruence|].
    destruct u as [[t b] p]. rewrite applyUpdates_app_last.
    eexists. reflexivity.
Qed.

End GasPriceProofs.

Module EthProofs.
Import Eth.

(** C8: when [handleReconnect] schedules a reconnect (not shutting down, no
    reconnect in flight) the delay is [min(30000, 1000 * 2^attempts)] and
    the counter goes up by one; the ['block'] listener resets it to 0, so a
    reconnect scheduled after a block waits 1000 ms.  From startup, four
    errors each followed by the reconnect give the delays 1000, 2000, 4000,
    8000 ms, and a block between two attempts makes the second 1000 ms. *)
Theorem reconnect_backoff (s : EthState) :
  isShuttingDown s = false -> isReconnecting s = false ->
  scheduledBackoff (handleReconnect s) =
    Some (Z.min MAX_BACKOFF_MS (BASE_BACKOFF_MS * 2 ^ reconnectAttempts s)) /\
  reconnectAttempts (handleReconnect s) = reconnectAttempts s + 1 /\
  reconnectAttempts (onBlock s) = 0 /\
  scheduledBackoff (handleReconnect (onBlock s)) = Some 1000 /\
  runDelays ethInit [ProviderError; TimerFires; ProviderError; TimerFires;
                     ProviderError; TimerFires; ProviderError] = [1000; 2000; 4000; 8000] /\
  runDelays ethInit [ProviderError; TimerFires; NewBlock; ProviderError] = [1000; 1000].
Proof.
  intros Hsd Hrc. unfold handleReconnect, onBlock. simpl. rewrite Hsd, Hrc. simpl.
  repeat split; reflexivity.
Qed.

Lemma reconnect_backoff_witness :
  scheduledBackoff (handleReconnect ethInit) = Some 1000 /\
  reconnectAttempts (handleReconnect ethInit) = 1.
Proof.
  destruct (reconnect_backoff ethInit eq_refl eq_refl) as [H1 [H2 _]].
  split; [exact H1 | exact H2].
Defined.

End EthProofs.

Module ReservesProofs.
Import Uniswap Reserves.

Definition pairK : string := "0x3041c6bcb0ac9b1cb04a6b2e5ebf947bbd5e8b46".
Definition tokA : string := "0xa0b86991c6218b36c1d19d4a2e9eb0ce3606eb48".
Definition tokB : string := "0xc02aaa39b223fe8d0a0e5c4f27ead9083c756cc2".

(** Request 0 starts fetch 0; the provider reconnects; request 1 starts
    fetch 1; the abandoned fetch 0 settles; request 2 arrives. *)
Definition coalesceTrace : list UEvent :=
  [GetReserves 0 pairK tokA tokB; ProviderReconnected; GetReserves 1 pairK tokA tokB;
   FetchSettles 0 (Ok (5, 7)) 10; GetReserves 2 pairK tokA tokB].

(** C2 (code defect): the [.finally] of the abandoned fetch 0 deletes the
    [pendingFetches] entry of fetch 1, so request 2 starts a second fetch
    for the same pair while fetch 1, of the current generation, is still in
    flight: two live fetches for one pair. *)
Theorem coalescing_broken_after_reconnect :
  liveFetches (uRun initUState coalesceTrace) pairK = 2%nat /\
  pendingFetches (uRun initUState (firstn 4 coalesceTrace)) !! pairK = None /\
  nextFetch (uRun initUState coalesceTrace) = 3%nat.
Proof. vm_compute. repeat split; reflexivity. Qed.

(** Fetch 0 starts, the provider reconnects, fetch 1 starts and settles
    under the new generation, then the abandoned fetch 0 settles. *)
Definition staleTrace : list UEvent :=
  [GetReserves 0 pairK tokA tokB; ProviderReconnected; GetReserves 1 pairK tokA tokB;
   FetchSettles 1 (Ok (5, 7)) 10].

(** C3 as stated fails: after the superseded fetch 0 settles, the next
    request for the pair starts no fetch; it is answered from the cache
    entry written by fetch 1. *)
Lemma stale_next_request_no_fetch :
  let s := uRun initUState staleTrace in
  let s' := uStep s (FetchSettles 0 (Ok (1, 2)) 11) in
  let s'' := uStep s' (GetReserves 2 pairK tokA tokB) in
  option_map f_gen (promises s !! 0%nat) = Some 0%nat /\
  providerGeneration s = 1%nat /\
  nextFetch s'' = nextFetch s' /\
  last (responses s'') = Some (2%nat, Ok (5, 7)).
Proof. vm_compute. repeat split; reflexivity. Qed.

(** C3 (amended): a fetch that settles after its captured generation was
    superseded leaves the reserve cache, the subscriptions and the
    generation unchanged; if the cache then has no entry for the pair, the
    next request for it is served by a fetch of the current generation
    (a fresh one, or a pending one it joins); if a fetch of the current
    generation had already filled the cache, the next request is answered
    from the cache without any fetch. *)
Theorem stale_fetch_discarded (s : UState) (id : nat) (f : FetchRec) (ws : list Waiter)
    (rpc : result (Z * Z)) (now : Z) :
  promises s !! id = Some f -> f_state f = PPending ws ->
  f_gen f <> providerGeneration s ->
  let s' := settleFetch s id rpc now in
  reservesCache s' = reservesCache s /\
  pairContracts s' = pairContracts s /\
  providerGeneration s' = providerGeneration s /\
  (forall rid a b, reservesCache s' !! f_pair f = None ->
     let s'' := getReserves s' rid (f_pair f) a b in
     (nextFetch s'' = S (nextFetch s') /\
      option_map f_gen (promises s'' !! nextFetch s') = Some (providerGeneration s')) \/
     (exists id' g, pendingFetches s' !! f_pair f = Some id' /\
        promises s' !! id' = Some g /\ f_gen g = providerGeneration s')) /\
  (forall rid a b r, reservesCache s !! f_pair f = Some r ->
     let s'' := getReserves s' rid (f_pair f) a b in
     nextFetch s'' = nextFetch s' /\ promises s'' = promises s' /\
     responses s'' = responses s' ++ [(rid, mapReserves r a b)]).
Proof.
  intros Hf Hst Hgen s'.
  assert (Hrest : let '(c, k, _) := fetchAndSubscribeRest s f rpc now in
                  c = reservesCache s /\ k = pairContracts s).
  { unfold fetchAndSubscribeRest. destruct (f_provider f); [|simpl; split; reflexivity].
    destruct rpc as [[r0 r1]|m]; [|split; reflexivity].
    apply Nat.eqb_neq in Hgen. rewrite Hgen. simpl. split; reflexivity. }
  unfold s', settleFetch. rewrite Hf, Hst.
  destruct (fetchAndSubscribeRest s f rpc now) as [[c k] o] eqn:E.
  destruct Hrest as [-> ->]. simpl.
  split; [reflexivity|split; [reflexivity|split; [reflexivity|split]]].
  - intros rid a b Hnone. left. unfold getReserves. simpl in *.
    rewrite Hnone, lookup_delete_eq. simpl. split; [reflexivity|].
    rewrite lookup_insert_eq. reflexivity.
  - intros rid a b r Hr. unfold getReserves. simpl. rewrite Hr.
    repeat split; reflexivity.
Qed.

Lemma stale_fetch_discarded_witness :
  (let s := uRun initUState [GetReserves 0 pairK tokA tokB; ProviderReconnected] in
   reservesCache (settleFetch s 0 (Ok (1, 2)) 11) = reservesCache s) /\
  (let s := uRun initUState staleTrace in
   let s' := settleFetch s 0 (Ok (1, 2)) 11 in
   nextFetch (getReserves s' 2%nat pairK tokA tokB) = nextFetch s').
Proof.
  split.
  - intros s.
    refine (proj1 (stale_fetch_discarded s 0
                     {| f_pair := pairK; f_gen := 0; f_provider := true;
                        f_state := PPending [(0%nat, tokA, tokB)] |}
                     [(0%nat, tokA, tokB)] (Ok (1, 2)) 11 _ _ _)).
    + vm_compute. reflexivity.
    + reflexivity.
    + vm_compute. discriminate.
  - intros s s'.
    refine (proj1 (proj2 (proj2 (proj2 (proj2 (stale_fetch_discarded s 0
                     {| f_pair := pairK; f_gen := 0; f_provider := true;
                        f_state := PPending [(0%nat, tokA, tokB)] |}
                     [(0%nat, tokA, tokB)] (Ok (1, 2)) 11 _ _ _)))) 2%nat tokA tokB
                     {| reserve0 := 5; reserve1 := 7; lastUpdated := 10 |} _)).
    + vm_compute. reflexivity.
    + reflexivity.
    + vm_compute. discriminate.
    + vm_compute. reflexivity.
Defined.

(** C10: when a fetch whose generation was superseded settles with reserves,
    every caller suspended on it receives [mapReserves] of those reserves
    (no error); only the cache write and the subscription are skipped. *)
Theorem stale_fetch_still_answers (s : UState) (id : nat) (f : FetchRec)
    (ws : list Waiter) (r0 r1 now : Z) :
  promises s !! id = Some f -> f_state f = PPending ws -> f_provider f = true ->
  f_gen f <> providerGeneration s ->
  let s' := settleFetch s id (Ok (r0, r1)) now in
  let reserves := {| reserve0 := r0; reserve1 := r1; lastUpdated := now |} in
  responses s' =
    responses s ++ map (fun '(rid, fromToken, toToken) =>
                          (rid, mapReserves reserves fromToken toToken)) ws /\
  reservesCache s' = reservesCache s /\
  pairContracts s' = pairContracts s.
Proof.
  intros Hf Hst Hprov Hgen s' reserves.
  unfold s', settleFetch. rewrite Hf, Hst. unfold fetchAndSubscribeRest.
  rewrite Hprov. apply Nat.eqb_neq in Hgen. rewrite Hgen. simpl.
  split; [|split; reflexivity].
  first [reflexivity | f_equal; apply map_ext; intros [[rid x] y]; reflexivity].
Qed.

Lemma stale_fetch_still_answers_witness :
  let s := uRun initUState [GetReserves 0 pairK tokA tokB; GetReserves 1 pairK tokB tokA;
                            ProviderReconnected] in
  responses (settleFetch s 0 (Ok (1, 2)) 11) = [(0%nat, Ok (1, 2)); (1%nat, Ok (2, 1))].
Proof.
  intros s.
  refine (eq_trans (proj1 (stale_fetch_still_answers s 0
                   {| f_pair := pairK; f_gen := 0; f_provider := true;
                      f_state := PPending [(0%nat, tokA, tokB); (1%nat, tokB, tokA)] |}
                   [(0%nat, tokA, tokB); (1%nat, tokB, tokA)] 1 2 11 _ _ _ _)) _).
  all: vm_compute; first [reflexivity | discriminate].
Defined.

End ReservesProofs.

Module ReservesExtra.
Import Uniswap Reserves.

(** [mapReserves] orients the stored [reserve0]/[reserve1] by the lower-sorted
    token, and swapping [fromToken]/[toToken] swaps [reserveIn]/[reserveOut]. *)
Theorem mapReserves_orientation (r : ReservesCache) (A B : string) :
  toLowerCase A <> toLowerCase B ->
  mapReserves r A B =
    Ok (if js_lt (toLowerCase A) (toLowerCase B) then (reserve0 r, reserve1 r)
        else (reserve1 r, reserve0 r)) /\
  mapReserves r B A =
    Ok (if js_lt (toLowerCase A) (toLowerCase B) then (reserve1 r, reserve0 r)
        else (reserve0 r, reserve1 r)).
Proof.
  intros Hne.
  assert (Hne' : toLowerCase B <> toLowerCase A) by congruence.
  unfold mapReserves, sortTokens.
  apply String.eqb_neq in Hne as E1. apply String.eqb_neq in Hne' as E2.
  rewrite E1, E2. rewrite (UniswapProofs.js_lt_flip (toLowerCase A) (toLowerCase B)) by congruence.
  destruct (js_lt (toLowerCase A) (toLowerCase B)); simpl;
    rewrite ?String.eqb_refl, ?E1, ?E2; split; reflexivity.
Qed.

Lemma mapReserves_orientation_witness :
  mapReserves {| reserve0 := 5; reserve1 := 7; lastUpdated := 0 |}
    "0xbb" "0xAA" = Ok (7, 5) /\
  mapReserves {| reserve0 := 5; reserve1 := 7; lastUpdated := 0 |}
    "0xAA" "0xbb" = Ok (5, 7).
Proof.
  pose proof (mapReserves_orientation {| reserve0 := 5; reserve1 := 7; lastUpdated := 0 |}
                "0xbb" "0xAA" ltac:(vm_compute; discriminate)) as [H1 H2].
  split; [exact H1 | exact H2].
Defined.

Lemma uRun_cons (s : UState) (e : UEvent) (es : list UEvent) :
  uRun s (e :: es) = uRun (uStep s e) es.
Proof. reflexivity. Qed.

Lemma uRun_app (s : UState) (es1 es2 : list UEvent) :
  uRun s (es1 ++ es2) = uRun (uRun s es1) es2.
Proof. unfold uRun. apply fold_left_app. Qed.

Definition requests (pairAddress : string) (ws : list Waiter) : list UEvent :=
  map (fun '(rid, a, b) => GetReserves rid pairAddress a b) ws.

Lemma join_requests (t : UState) (k : string) (id : nat) (f : FetchRec) (ws0 ws : list Waiter) :
  reservesCache t !! k = None -> pendingFetches t !! k = Some id ->
  promises t !! id = Some f -> f_state f = PPending ws0 ->
  let t' := uRun t (requests k ws) in
  reservesCache t' !! k = None /\ pendingFetches t' !! k = Some id /\
  nextFetch t' = nextFetch t /\ providerGeneration t' = providerGeneration t /\
  promises t' !! id = Some {| f_pair := f_pair f; f_gen := f_gen f;
                              f_provider := f_provider f; f_state := PPending (ws0 ++ ws) |}.
Proof.
  revert t f ws0. induction ws as [|[[rid a] b] ws IH]; intros t f ws0 Hc Hp Hf Hst t'.
  - subst t'. simpl. rewrite app_nil_r. repeat split; try assumption.
    rewrite Hf. destruct f as [fp fg fpr fs]. simpl in Hst. subst fs. reflexivity.
  - subst t'. simpl requests. rewrite uRun_cons. simpl uStep.
    set (f1 := {| f_pair := f_pair f; f_gen := f_gen f; f_provider := f_provider f;
                  f_state := PPending (ws0 ++ [(rid, a, b)]) |}).
    assert (E : getReserves t rid k a b =
      {| reservesCache := reservesCache t; pendingFetches := pendingFetches t;
         pairContracts := pairContracts t; providerGeneration := providerGeneration t;
         promises := <[id := f1]> (promises t); nextFetch := nextFetch t;
         providerAvailable := providerAvailable t; responses := responses t |}).
    { unfold getReserves. rewrite Hc, Hp, Hf, Hst. reflexivity. }
    rewrite E.
    match goal with |- context [uRun ?t1 _] =>
      destruct (IH t1 f1 (ws0 ++ [(rid, a, b)])) as (H1 & H2 & H3 & H4 & H5) end;
      simpl; try assumption.
    + rewrite lookup_insert_eq. reflexivity.
    + reflexivity.
    + unfold f1 in H5. simpl in *. rewrite <- app_assoc in H5. simpl in H5.
      repeat split; assumption.
Qed.

(** Coalescing: consecutive requests for a pair with no cache entry and no
    pending fetch start exactly one fetch, under the current generation,
    and every one of them waits on it. *)
Theorem requests_coalesce (s : UState) (k : string) (w : Waiter) (ws : list Waiter) :
  reservesCache s !! k = None -> pendingFetches s !! k = None ->
  let s' := uRun s (requests k (w :: ws)) in
  nextFetch s' = S (nextFetch s) /\
  pendingFetches s' !! k = Some (nextFetch s) /\
  promises s' !! nextFetch s =
    Some {| f_pair := k; f_gen := providerGeneration s;
            f_provider := providerAvailable s; f_state := PPending (w :: ws) |}.
Proof.
  intros Hc Hp s'. destruct w as [[rid a] b]. subst s'.
  simpl requests. rewrite uRun_cons. simpl uStep.
  set (f0 := {| f_pair := k; f_gen := providerGeneration s; f_provider := providerAvailable s;
                f_state := PPending [(rid, a, b)] |}).
  assert (E : getReserves s rid k a b =
    {| reservesCache := reservesCache s;
       pendingFetches := <[k := nextFetch s]> (pendingFetches s);
       pairContracts := pairContracts s; providerGeneration := providerGeneration s;
       promises := <[nextFetch s := f0]> (promises s); nextFetch := S (nextFetch s);
       providerAvailable := providerAvailable s; responses := responses s |}).
  { unfold getReserves. rewrite Hc, Hp. reflexivity. }
  rewrite E.
  match goal with |- context [uRun ?t1 _] =>
    destruct (join_requests t1 k (nextFetch s) f0 [(rid, a, b)] ws) as (H1 & H2 & H3 & H4 & H5) end;
    simpl; try (rewrite lookup_insert_eq; reflexivity); try assumption; try reflexivity.
  simpl in *. repeat split; assumption.
Qed.

Lemma requests_coalesce_witness :
  let s' := uRun initUState (requests ReservesProofs.pairK
              [(0%nat, ReservesProofs.tokA, ReservesProofs.tokB);
               (1%nat, ReservesProofs.tokB, ReservesProofs.tokA);
               (2%nat, ReservesProofs.tokA, ReservesProofs.tokB)]) in
  nextFetch s' = 1%nat.
Proof.
  exact (proj1 (requests_coalesce initUState ReservesProofs.pairK _ _ eq_refl eq_refl)).
Defined.

(** Every cached pair has a live Sync subscription. *)
Definition cacheSubscribed (s : UState) : Prop :=
  forall k r, reservesCache s !! k = Some r -> k ∈ pairContracts s.

(** Every pending entry names an in-flight fetch of that pair started under
    the current generation; every fetch number used is below [nextFetch]. *)
Definition pendingCurrent (s : UState) : Prop :=
  (forall k id, pendingFetches s !! k = Some id ->
     exists f ws, promises s !! id = Some f /\ f_pair f = k /\
                  f_gen f = providerGeneration s /\ f_state f = PPending ws) /\
  (forall id f, promises s !! id = Some f -> (id < nextFetch s)%nat).

Ltac destruct_getReserves s p :=
  unfold getReserves;
  destruct (reservesCache s !! p) eqn:?; [simpl|];
  [| destruct (pendingFetches s !! p) as [?id|] eqn:?;
     [ destruct (promises s !! id) as [?f|] eqn:?;
       [ destruct (f_state f) as [?ws|?o] eqn:? | ] | ] ].

Lemma rest_shape (s : UState) (f : FetchRec) (rpc : result (Z * Z)) (now : Z) :
  let '(c, k, _) := fetchAndSubscribeRest s f rpc now in
  (c = reservesCache s /\ k = pairContracts s) \/
  (exists r, c = <[f_pair f := r]> (reservesCache s) /\ k = {[ f_pair f ]} ∪ pairContracts s).
Proof.
  unfold fetchAndSubscribeRest.
  destruct (f_provider f); simpl; [|left; split; reflexivity].
  destruct rpc as [[r0 r1]|m]; [|left; split; reflexivity].
  destruct (negb (f_gen f =? providerGeneration s)%nat); [left; split; reflexivity|].
  right. eexists. split; [reflexivity|].
  destruct (decide (f_pair f ∈ pairContracts s)); set_solver.
Qed.

Lemma cacheSubscribed_step (s : UState) (e : UEvent) :
  cacheSubscribed s -> cacheSubscribed (uStep s e).
Proof.
  intros H. destruct e as [rid p a b|id rpc now| |p r0 r1 now|bprov]; simpl.
  - destruct_getReserves s p; exact H.
  - unfold settleFetch. destruct (promises s !! id) as [f|]; [|exact H].
    destruct (f_state f) as [ws|o]; [|exact H].
    pose proof (rest_shape s f rpc now) as Hr.
    destruct (fetchAndSubscribeRest s f rpc now) as [[c k] o].
    intros k' r'. simpl. destruct Hr as [[-> ->]|[r [-> ->]]]; [apply H|].
    rewrite lookup_insert_Some. intros [[<- _]|[_ Hk]]; [set_solver|].
    apply H in Hk. set_solver.
  - intros k r. simpl. rewrite lookup_empty. discriminate.
  - unfold onSync. destruct (decide (p ∈ pairContracts s)) as [Hin|]; [|exact H].
    intros k r. simpl. rewrite lookup_insert_Some.
    intros [[<- _]|[_ Hk]]; [exact Hin | exact (H k r Hk)].
  - exact H.
Qed.

Lemma cacheSubscribed_run (s : UState) (es : list UEvent) :
  cacheSubscribed s -> cacheSubscribed (uRun s es).
Proof.
  revert s. induction es as [|e es IH]; intros s H; [exact H|].
  rewrite uRun_cons. apply IH, cacheSubscribed_step, H.
Qed.

(** In every reachable state every cached pair has a Sync subscription, so
    cached reserves are kept up to date by Sync events. *)
Theorem cache_entries_subscribed (es : list UEvent) (k : string) (r : ReservesCache) :
  reservesCache (uRun initUState es) !! k = Some r -> k ∈ pairContracts (uRun initUState es).
Proof.
  apply cacheSubscribed_run. intros k' r'. simpl. rewrite lookup_empty. discriminate.
Qed.

Lemma cache_entries_subscribed_witness :
  ReservesProofs.pairK ∈ pairContracts
    (uRun initUState [GetReserves 0 ReservesProofs.pairK ReservesProofs.tokA ReservesProofs.tokB;
                      FetchSettles 0 (Ok (5, 7)) 10]).
Proof.
  apply (cache_entries_subscribed _ _ {| reserve0 := 5; reserve1 := 7; lastUpdated := 10 |}).
  vm_compute. reflexivity.
Defined.

Lemma pendingCurrent_step (s : UState) (e : UEvent) :
  pendingCurrent s -> pendingCurrent (uStep s e).
Proof.
  intros [HP HF]. destruct e as [rid p a b|id rpc now| |p r0 r1 now|bprov]; simpl.
  - unfold getReserves.
    destruct (reservesCache s !! p) eqn:Hc; [split; assumption|].
    destruct (pendingFetches s !! p) as [id|] eqn:Hp.
    + destruct (promises s !! id) as [f|] eqn:Hf; [|split; assumption].
      destruct (f_state f) as [ws|o] eqn:Hst; [|split; assumption].
      split; simpl.
      * intros k id' Hk. destruct (HP k id' Hk) as (f' & ws' & Hf' & Hpair & Hgen & Hst').
        destruct (decide (id' = id)) as [->|Hne].
        -- rewrite Hf in Hf'. injection Hf' as <-.
           exists {| f_pair := f_pair f; f_gen := f_gen f; f_provider := f_provider f;
                     f_state := PPending (ws ++ [(rid, a, b)]) |}, (ws ++ [(rid, a, b)]).
           rewrite lookup_insert_eq. simpl. repeat split; assumption.
        -- exists f', ws'. rewrite lookup_insert_ne by congruence. repeat split; assumption.
      * intros id' f' Hf'. destruct (decide (id' = id)) as [->|Hne].
        -- exact (HF id f Hf).
        -- rewrite lookup_insert_ne in Hf' by congruence. exact (HF id' f' Hf').
    + split; simpl.
      * intros k id' Hk. destruct (decide (k = p)) as [->|Hne].
        -- rewrite lookup_insert_eq in Hk. injection Hk as <-.
           eexists _, _. rewrite lookup_insert_eq. simpl. repeat split; reflexivity.
        -- rewrite lookup_insert_ne in Hk by congruence.
           destruct (HP k id' Hk) as (f' & ws' & Hf' & Hpair & Hgen & Hst').
           pose proof (HF id' f' Hf') as Hlt.
           exists f', ws'. rewrite lookup_insert_ne by lia. repeat split; assumption.
      * intros id' f' Hf'. destruct (decide (id' = nextFetch s)) as [->|Hne]; [lia|].
        rewrite lookup_insert_ne in Hf' by congruence. pose proof (HF id' f' Hf'). lia.
  - unfold settleFetch. destruct (promises s !! id) as [f|] eqn:Hf; [|split; assumption].
    destruct (f_state f) as [ws|o] eqn:Hst; [|split; assumption].
    destruct (fetchAndSubscribeRest s f rpc now) as [[c k] o]. split; simpl.
    + intros k' id' Hk. destruct (decide (k' = f_pair f)) as [->|Hne].
      { rewrite lookup_delete_eq in Hk. discriminate. }
      rewrite lookup_delete_ne in Hk by congruence.
      destruct (HP k' id' Hk) as (f' & ws' & Hf' & Hpair & Hgen & Hst').
      destruct (decide (id' = id)) as [->|Hid].
      { rewrite Hf in Hf'. injection Hf' as <-. congruence. }
      exists f', ws'. rewrite lookup_insert_ne by congruence. repeat split; assumption.
    + intros id' f' Hf'. destruct (decide (id' = id)) as [->|Hne].
      * exact (HF id f Hf).
      * rewrite lookup_insert_ne in Hf' by congruence. exact (HF id' f' Hf').
  - split; simpl; [|exact HF]. intros k id. rewrite lookup_empty. discriminate.
  - unfold onSync. destruct (decide (p ∈ pairContracts s)); split; assumption.
  - split; assumption.
Qed.

Lemma pendingCurrent_run (s : UState) (es : list UEvent) :
  pendingCurrent s -> pendingCurrent (uRun s es).
Proof.
  revert s. induction es as [|e es IH]; intros s H; [exact H|].
  rewrite uRun_cons. apply IH, pendingCurrent_step, H.
Qed.

(** In every reachable state a [pendingFetches] entry names a fetch of that
    pair that is still in flight and was started under the current
    generation: a request that joins a pending fetch never joins one
    abandoned by a reconnect, nor one that has already settled. *)
Theorem pending_fetch_current (es : list UEvent) (k : string) (id : nat) :
  let s := uRun initUState es in
  pendingFetches s !! k = Some id ->
  exists f ws, promises s !! id = Some f /\ f_pair f = k /\
               f_gen f = providerGeneration s /\ f_state f = PPending ws.
Proof.
  intros s. apply (pendingCurrent_run initUState es).
  split; simpl; intros ? ?; rewrite lookup_empty; discriminate.
Qed.

Lemma pending_fetch_current_witness :
  exists f ws,
    promises (uRun initUState ReservesProofs.coalesceTrace) !! 2%nat = Some f /\
    f_pair f = ReservesProofs.pairK /\
    f_gen f = providerGeneration (uRun initUState ReservesProofs.coalesceTrace) /\
    f_state f = PPending ws.
Proof.
  apply (pending_fetch_current ReservesProofs.coalesceTrace ReservesProofs.pairK 2).
  vm_compute. reflexivity.
Defined.

(** A fetch of the current generation that settles with reserves caches
    them for its pair, subscribes the pair and answers every waiting caller
    with them; the next request for the pair is answered from the cache
    without a fetch, and after a Sync event for the pair the next request is
    answered with the synced reserves. *)
Theorem current_fetch_caches (s : UState) (id : nat) (f : FetchRec) (ws : list Waiter)
    (r0 r1 now : Z) :
  promises s !! id = Some f -> f_state f = PPending ws -> f_provider f = true ->
  f_gen f = providerGeneration s ->
  let s' := settleFetch s id (Ok (r0, r1)) now in
  let reserves := {| reserve0 := r0; reserve1 := r1; lastUpdated := now |} in
  reservesCache s' !! f_pair f = Some reserves /\
  f_pair f ∈ pairContracts s' /\
  responses s' = responses s ++ map (answer (Ok reserves)) ws /\
  (forall rid a b,
     let s'' := getReserves s' rid (f_pair f) a b in
     nextFetch s'' = nextFetch s' /\
     responses s'' = responses s' ++ [(rid, mapReserves reserves a b)]) /\
  (forall x y t rid a b,
     let s'' := getReserves (onSync s' (f_pair f) x y t) rid (f_pair f) a b in
     last (responses s'') =
       Some (rid, mapReserves {| reserve0 := x; reserve1 := y; lastUpdated := t |} a b)).
Proof.
  intros Hf Hst Hprov Hgen s' reserves.
  assert (Hc : reservesCache s' !! f_pair f = Some reserves).
  { unfold s', settleFetch. rewrite Hf, Hst. unfold fetchAndSubscribeRest.
    rewrite Hprov, Hgen, Nat.eqb_refl. simpl. apply lookup_insert_eq. }
  assert (Hk : f_pair f ∈ pairContracts s').
  { unfold s', settleFetch. rewrite Hf, Hst. unfold fetchAndSubscribeRest.
    rewrite Hprov, Hgen, Nat.eqb_refl. simpl.
    destruct (decide (f_pair f ∈ pairContracts s)); set_solver. }
  split; [exact Hc|split; [exact Hk|split]].
  - unfold s', settleFetch. rewrite Hf, Hst. unfold fetchAndSubscribeRest.
    rewrite Hprov, Hgen, Nat.eqb_refl. reflexivity.
  - split.
    + intros rid a b s''. unfold s'', getReserves. rewrite Hc. split; reflexivity.
    + intros x y t rid a b s''. unfold s'', getReserves, onSync.
      destruct (decide (f_pair f ∈ pairContracts s')) as [_|]; [|contradiction].
      simpl. rewrite lookup_insert_eq. simpl. rewrite last_snoc. reflexivity.
Qed.

Lemma current_fetch_caches_witness :
  reservesCache (settleFetch
    (uRun initUState [GetReserves 0 ReservesProofs.pairK ReservesProofs.tokA ReservesProofs.tokB])
    0 (Ok (5, 7)) 10) !! ReservesProofs.pairK =
  Some {| reserve0 := 5; reserve1 := 7; lastUpdated := 10 |}.
Proof.
  refine (proj1 (current_fetch_caches _ 0
            {| f_pair := ReservesProofs.pairK; f_gen := 0; f_provider := true;
               f_state := PPending [(0%nat, ReservesProofs.tokA, ReservesProofs.tokB)] |}
            _ 5 7 10 _ _ _ _)).
  all: vm_compute; reflexivity.
Defined.

(** A fetch that fails (the RPC rejects, or there was no provider), of the
    current generation or a superseded one, passes the same error to every
    waiting caller and leaves the cache and the subscriptions as they were;
    the [.finally] deletes the pair's pending entry, so the next request for
    the pair without a cache entry starts a fresh fetch of the current
    generation. *)
Theorem failed_fetch_propagates (s : UState) (id : nat) (f : FetchRec) (ws : list Waiter)
    (m : string) (now : Z) :
  promises s !! id = Some f -> f_state f = PPending ws ->
  let msg := if f_provider f then m else "WebSocket provider not available"%string in
  let s' := settleFetch s id (Throw m) now in
  responses s' = responses s ++ map (fun '(rid, _, _) => (rid, Throw msg)) ws /\
  reservesCache s' = reservesCache s /\ pairContracts s' = pairContracts s /\
  (forall rid a b, reservesCache s !! f_pair f = None ->
     let s'' := getReserves s' rid (f_pair f) a b in
     nextFetch s'' = S (nextFetch s') /\
     option_map f_gen (promises s'' !! nextFetch s') = Some (providerGeneration s')).
Proof.
  intros Hf Hst msg s'.
  assert (Hrest : fetchAndSubscribeRest s f (Throw m) now =
                  (reservesCache s, pairContracts s, Throw msg)).
  { unfold fetchAndSubscribeRest, msg. destruct (f_provider f); reflexivity. }
  unfold s', settleFetch. rewrite Hf, Hst, Hrest. simpl.
  split; [|split; [reflexivity|split; [reflexivity|]]].
  - first [reflexivity | f_equal; apply map_ext; intros [[rid a] b]; reflexivity].
  - intros rid a b Hnone. unfold getReserves. simpl. rewrite Hnone, lookup_delete_eq.
    simpl. split; [reflexivity|]. rewrite lookup_insert_eq. reflexivity.
Qed.

(* A superseded fetch: request 0 starts fetch 0, the provider reconnects,
   then fetch 0 fails. *)
Lemma failed_fetch_propagates_witness :
  let s := uRun initUState [GetReserves 0 ReservesProofs.pairK ReservesProofs.tokA ReservesProofs.tokB;
                            GetReserves 1 ReservesProofs.pairK ReservesProofs.tokB ReservesProofs.tokA;
                            ProviderReconnected] in
  responses (settleFetch s 0 (Throw "CALL_EXCEPTION") 10) =
    [(0%nat, Throw "CALL_EXCEPTION"); (1%nat, Throw "CALL_EXCEPTION")].
Proof.
  intros s.
  refine (eq_trans (proj1 (failed_fetch_propagates s 0
            {| f_pair := ReservesProofs.pairK; f_gen := 0; f_provider := true;
               f_state := PPending [(0%nat, ReservesProofs.tokA, ReservesProofs.tokB);
                                    (1%nat, ReservesProofs.tokB, ReservesProofs.tokA)] |}
            [(0%nat, ReservesProofs.tokA, ReservesProofs.tokB);
             (1%nat, ReservesProofs.tokB, ReservesProofs.tokA)]
            "CALL_EXCEPTION" 10 _ _)) _).
  all: vm_compute; reflexivity.
Defined.

(** With no provider, a request for an uncached pair fails, once its fetch
    settles, with the provider-unavailable error, which the swap endpoint
    maps to 503 Service Unavailable. *)
Theorem no_provider_gives_503 (s : UState) (rid : nat) (k a b : string)
    (rpc : result (Z * Z)) (now : Z) :
  providerAvailable s = false -> reservesCache s !! k = None -> pendingFetches s !! k = None ->
  let s' := settleFetch (getReserves s rid k a b) (nextFetch s) rpc now in
  exists m, last (responses s') = Some (rid, Throw m) /\
            SwapEndpoint.mapServiceError m =
              SwapEndpoint.HttpError 503 "Service is starting up, please try again".
Proof.
  intros Hp Hc Hpend s'. exists "WebSocket provider not available"%string. split.
  - unfold s', getReserves. rewrite Hc, Hpend. unfold settleFetch. simpl.
    rewrite lookup_insert_eq. simpl. unfold fetchAndSubscribeRest. simpl. rewrite Hp.
    simpl. apply last_snoc.
  - vm_compute. reflexivity.
Qed.

Lemma no_provider_gives_503_witness :
  exists m, last (responses (settleFetch
     (getReserves (setProvider initUState false) 0 ReservesProofs.pairK
        ReservesProofs.tokA ReservesProofs.tokB) 0 (Ok (5, 7)) 10)) = Some (0%nat, Throw m) /\
    SwapEndpoint.mapServiceError m =
      SwapEndpoint.HttpError 503 "Service is starting up, please try again".
Proof.
  exact (no_provider_gives_503 (setProvider initUState false) 0 ReservesProofs.pairK
           ReservesProofs.tokA ReservesProofs.tokB (Ok (5, 7)) 10 eq_refl eq_refl eq_refl).
Defined.

End ReservesExtra.

Module SwapEndpointProofs.
Import Uniswap SwapEndpoint.

Lemma decimalValueAcc_ge (rest : string) (acc : Z) :
  0 <= acc -> forallb isDigit (list_ascii_of_string rest) = true ->
  acc <= decimalValueAcc acc rest.
Proof.
  revert acc. induction rest as [|c rest IH]; intros acc Hacc Hd; simpl; [lia|].
  cbn [list_ascii_of_string forallb] in Hd. apply andb_prop in Hd as [Hc Hd].
  unfold isDigit in Hc. apply andb_prop in Hc as [H1 H2]. apply Nat.leb_le in H1.
  assert (acc <= acc * 10 + (Z.of_nat (nat_of_ascii c) - 48)) by lia.
  specialize (IH (acc * 10 + (Z.of_nat (nat_of_ascii c) - 48)) ltac:(lia) Hd). lia.
Qed.

Lemma positiveInt_value (s : string) :
  positiveIntRegexTest s = true -> 1 <= decimalValue s.
Proof.
  destruct s as [|c rest]; [discriminate|]. unfold positiveIntRegexTest.
  intros H. apply andb_prop in H as [H Hd]. apply andb_prop in H as [H1 H2].
  apply Nat.leb_le in H1. unfold decimalValue. cbn [decimalValueAcc].
  assert (H0 : 0 <= Z.of_nat (nat_of_ascii c) - 48) by lia.
  pose proof (decimalValueAcc_ge rest _ H0 Hd). rewrite Z.mul_0_l, Z.add_0_l. lia.
Qed.

(** A quote request that passes the controller's checks, for a pool whose
    reserves are read, is answered 200 with the floor formula when both
    reserves are positive and 422 otherwise; in particular it is never
    answered "Input amount must be greater than zero": the amount, matched
    by [/^[1-9]\d*$/], is at least 1. *)
Theorem validated_quote (isAddress : string -> bool)
    (pairAddressOf : string -> string -> result string)
    (reservesOf : string -> string -> string -> result (Z * Z))
    (BigInt : string -> result Z)
    (fromToken toToken amountIn pair : string) (reserveIn reserveOut : Z) :
  (forall s, positiveIntRegexTest s = true -> BigInt s = Ok (decimalValue s)) ->
  isAddress fromToken = true -> isAddress toToken = true ->
  toLowerCase fromToken <> toLowerCase toToken ->
  positiveIntRegexTest amountIn = true ->
  pairAddressOf fromToken toToken = Ok pair ->
  reservesOf pair fromToken toToken = Ok (reserveIn, reserveOut) ->
  let a := decimalValue amountIn in
  1 <= a /\
  controllerGetReturnAmount isAddress (getReturnAmount pairAddressOf reservesOf BigInt)
    fromToken toToken amountIn =
  if (reserveIn <=? 0) || (reserveOut <=? 0) then
    HttpError 422 "Insufficient liquidity in the pool"
  else Http200 (a * 997 * reserveOut / (reserveIn * 1000 + a * 997)).
Proof.
  intros HB Hf Ht Hne Hre Hp Hr a.
  pose proof (positiveInt_value amountIn Hre) as Ha. split; [exact Ha|].
  unfold controllerGetReturnAmount. rewrite Hf, Ht, Hre. simpl.
  apply String.eqb_neq in Hne. rewrite Hne.
  unfold getReturnAmount. rewrite Hp, Hr, (HB amountIn Hre).
  destruct (Z.leb_spec reserveIn 0); destruct (Z.leb_spec reserveOut 0); simpl.
  1-3: unfold getAmountOut; destruct (Z.leb_spec (decimalValue amountIn) 0); [lia|];
       rewrite ?(proj2 (Z.leb_le reserveIn 0)), ?(proj2 (Z.leb_le reserveOut 0)) by lia;
       rewrite ?orb_true_r; reflexivity.
  rewrite UniswapProofs.getAmountOut_pos by lia. reflexivity.
Qed.

Lemma validated_quote_witness :
  controllerGetReturnAmount (fun _ => true)
    (getReturnAmount (fun _ _ => Ok "0xpair"%string) (fun _ _ _ => Ok (10000, 10000))
       (fun s => Ok (decimalValue s)))
    "0xaa" "0xbb" "1000" = Http200 906.
Proof.
  refine (eq_trans (proj2 (validated_quote (fun _ => true) (fun _ _ => Ok "0xpair"%string)
            (fun _ _ _ => Ok (10000, 10000)) (fun s => Ok (decimalValue s))
            "0xaa" "0xbb" "1000" "0xpair" 10000 10000
            (fun _ _ => eq_refl) eq_refl eq_refl ltac:(vm_compute; discriminate)
            eq_refl eq_refl eq_refl)) _).
  vm_compute. reflexivity.
Defined.

End SwapEndpointProofs.

Module GasPriceExtra.
Import GasPrice.

Lemma div_bounds (x d : Z) : 0 < d -> d * (x / d) <= x < d * (x / d) + d.
Proof. intros Hd. pose proof (Z.div_mod x d ltac:(lia)). pose proof (Z.mod_pos_bound x d Hd). lia. Qed.

(** Every update stores priority fees that start at the 1.5 Gwei floor or
    above and strictly increase from [low] to [instant]; with
    [baseFee >= 0] the max fees strictly increase too and each tier's max
    fee is at least its priority fee.  So the tiers are never all equal. *)
Theorem tiers_strictly_increase (now b p : Z) (s : GasPriceService) :
  0 <= b ->
  exists c, cache (updateGasPrice now b p s) = Some c /\
  let r := data c in
  MIN_PRIORITY_FEE <= maxPriorityFeePerGas (low r) /\
  maxPriorityFeePerGas (low r) < maxPriorityFeePerGas (medium r) /\
  maxPriorityFeePerGas (medium r) < maxPriorityFeePerGas (high r) /\
  maxPriorityFeePerGas (high r) < maxPriorityFeePerGas (instant r) /\
  maxFeePerGas (low r) < maxFeePerGas (medium r) /\
  maxFeePerGas (medium r) < maxFeePerGas (high r) /\
  maxFeePerGas (high r) < maxFeePerGas (instant r) /\
  maxPriorityFeePerGas (low r) <= maxFeePerGas (low r) /\
  maxPriorityFeePerGas (medium r) <= maxFeePerGas (medium r) /\
  maxPriorityFeePerGas (high r) <= maxFeePerGas (high r) /\
  maxPriorityFeePerGas (instant r) <= maxFeePerGas (instant r).
Proof.
  intros Hb. eexists; split; [reflexivity|]. simpl.
  unfold calculateTier, TIERS_low, TIERS_medium, TIERS_high, TIERS_instant. simpl.
  set (a := if p >? MIN_PRIORITY_FEE then p else MIN_PRIORITY_FEE).
  assert (Ha : MIN_PRIORITY_FEE <= a) by (unfold a; destruct (Z.gtb_spec p MIN_PRIORITY_FEE); lia).
  unfold MIN_PRIORITY_FEE in *.
  rewrite !Z.quot_div_nonneg by nia.
  pose proof (div_bounds (a * 100) 100 ltac:(lia)).
  pose proof (div_bounds (a * 120) 100 ltac:(lia)).
  pose proof (div_bounds (a * 150) 100 ltac:(lia)).
  pose proof (div_bounds (a * 200) 100 ltac:(lia)).
  pose proof (div_bounds (b * 110) 100 ltac:(lia)).
  pose proof (div_bounds (b * 125) 100 ltac:(lia)).
  pose proof (div_bounds (b * 150) 100 ltac:(lia)).
  pose proof (div_bounds (b * 200) 100 ltac:(lia)).
  lia.
Qed.

Lemma tiers_strictly_increase_witness :
  exists c, cache (updateGasPrice 0 0 0 {| stalenessMs := 30000; cache := None |}) = Some c /\
  maxPriorityFeePerGas (low (data c)) = 1500000000.
Proof.
  destruct (tiers_strictly_increase 0 0 0 {| stalenessMs := 30000; cache := None |} ltac:(lia))
    as [c [Hc _]].
  exists c. split; [exact Hc|]. injection Hc as <-. reflexivity.
Defined.

(** Suggested priority fees at or below the 1.5 Gwei floor all give the same
    snapshot. *)
Theorem below_floor_same_snapshot (now b p1 p2 : Z) (s : GasPriceService) :
  p1 <= MIN_PRIORITY_FEE -> p2 <= MIN_PRIORITY_FEE ->
  updateGasPrice now b p1 s = updateGasPrice now b p2 s.
Proof.
  intros H1 H2. unfold updateGasPrice.
  destruct (Z.gtb_spec p1 MIN_PRIORITY_FEE); [lia|].
  destruct (Z.gtb_spec p2 MIN_PRIORITY_FEE); [lia|]. reflexivity.
Qed.

Lemma below_floor_same_snapshot_witness :
  updateGasPrice 0 100 0 {| stalenessMs := 1; cache := None |} =
  updateGasPrice 0 100 1000 {| stalenessMs := 1; cache := None |}.
Proof. apply below_floor_same_snapshot; unfold MIN_PRIORITY_FEE; lia. Defined.

End GasPriceExtra.

Module IngestProofs.
Import GasPrice Ingest.

(** The fee update a block yields, if any: [(Date.now(), baseFeePerGas,
    BigInt(priorityFee))] for a block seen with a provider, successful RPC
    calls, a non-zero base fee and a parseable priority fee. *)
Definition feeUpdate (BigInt : string -> result Z) (e : BlockEvent) : option (Z * Z * Z) :=
  match bProvider e, bRpc e with
  | Some _, Ok (Some (Some bf), pf) =>
      if bf =? 0 then None
      else match BigInt pf with Ok p => Some (bNow e, bf, p) | Throw _ => None end
  | _, _ => None
  end.

Definition feeUpdates (BigInt : string -> result Z) (evs : list BlockEvent) : list (Z * Z * Z) :=
  flat_map (fun e => match feeUpdate BigInt e with Some u => [u] | None => [] end) evs.

Lemma fetchAndUpdateGasPrice_feeUpdate (BigInt : string -> result Z) (e : BlockEvent)
    (g : GasPriceService) :
  fetchAndUpdateGasPrice BigInt (bProvider e) (bRpc e) (bNow e) g =
  match feeUpdate BigInt e with Some (t, b, p) => updateGasPrice t b p g | None => g end.
Proof.
  unfold fetchAndUpdateGasPrice, feeUpdate.
  destruct (bProvider e); [|reflexivity].
  destruct (bRpc e) as [[[[bf|]|] pf]|m]; try reflexivity.
  destruct (bf =? 0); [reflexivity|]. destruct (BigInt pf); reflexivity.
Qed.

(** Over any sequence of blocks, ingestion is [updateGasPrice] applied, in
    order, to exactly the blocks that carry a usable non-zero base fee; the
    other blocks (no provider, failed RPC, no base fee, base fee 0,
    unparseable fee) never disturb the snapshot served.  [getGasPrice] then
    serves the snapshot of the last usable block, with its timestamp, or,
    if there was none, whatever it served before. *)
Theorem ingestion_run (BigInt : string -> result Z) (evs : list BlockEvent)
    (g : GasPriceService) (now : Z) :
  ingestRun BigInt evs g = GasPriceProofs.applyUpdates g (feeUpdates BigInt evs) /\
  (feeUpdates BigInt evs = [] -> getGasPrice now (ingestRun BigInt evs g) = getGasPrice now g) /\
  (forall us t b p, feeUpdates BigInt evs = us ++ [(t, b, p)] ->
     exists c, cache (updateGasPrice t b p g) = Some c /\
       getGasPrice now (ingestRun BigInt evs g) = Ok (data c) /\
       getLastUpdateTimestamp (ingestRun BigInt evs g) = Some t).
Proof.
  assert (Hrun : forall g0, ingestRun BigInt evs g0 =
                            GasPriceProofs.applyUpdates g0 (feeUpdates BigInt evs)).
  { induction evs as [|e evs IH]; intros g0; [reflexivity|].
    unfold ingestRun in *. cbn [fold_left].
    rewrite fetchAndUpdateGasPrice_feeUpdate, IH. cbn [feeUpdates flat_map].
    destruct (feeUpdate BigInt e) as [[[t b] p]|]; reflexivity. }
  rewrite Hrun. split; [reflexivity|split].
  - intros ->. reflexivity.
  - intros us t b p ->. rewrite GasPriceProofs.applyUpdates_app_last.
    eexists; split; [reflexivity|]. split; reflexivity.
Qed.

(** The [eth_ws] indicator is healthy exactly when a snapshot exists that
    is at most [stalenessMs] old, or the app started less than the grace
    period ago; after an update at time [t > 0] its details show [t] and the
    whole seconds elapsed since. *)
Theorem health_indicator (now appStart grace : Z) (g : GasPriceService) :
  ((exists d, isHealthy now appStart grace g = Ok d) <->
   ((exists c, cache g = Some c /\ now - updatedAt c <= stalenessMs g) \/
    now - appStart < grace)) /\
  (forall t b p, 0 < t ->
     isHealthy now appStart grace (updateGasPrice t b p g) =
     if (now - t <=? stalenessMs g) || (now - appStart <? grace) then
       Ok {| lastUpdate := Some t; secondsSinceLastUpdate := Some ((now - t) / 1000) |}
     else Throw "Ethereum WebSocket is stale or disconnected").
Proof.
  split.
  - unfold isHealthy, isCacheStale. destruct (cache g) as [c|] eqn:Hc.
    + destruct (Z.gtb_spec (now - updatedAt c) (stalenessMs g));
      destruct (Z.ltb_spec (now - appStart) grace); simpl; split;
        try (intros; eexists; reflexivity);
        try (intros [d Hd]; discriminate);
        try (intros _; right; lia);
        try (intros _; left; exists c; split; [reflexivity|lia]).
      intros [[c' [Hc' Hle]]|Hlt]; [injection Hc' as <-; lia | lia].
    + destruct (Z.ltb_spec (now - appStart) grace); simpl; split.
      * intros _. right. lia.
      * intros _. eexists. reflexivity.
      * intros [d Hd]. discriminate.
      * intros [[c' [Hc' _]]|Hlt]; [discriminate | lia].
  - intros t b p Ht. unfold isHealthy, getLastUpdateTimestamp, isCacheStale. simpl.
    destruct (Z.gtb_spec t 0); [|lia].
    destruct (Z.gtb_spec (now - t) (stalenessMs g));
      destruct (Z.leb_spec (now - t) (stalenessMs g)); try lia; reflexivity.
Qed.

End IngestProofs.

Module EthExtra.
Import Eth.

Definition ethRun (s : EthState) (es : list EthEvent) : EthState := fold_left ethStep es s.

Lemma ethStep_shut (s : EthState) (e : EthEvent) :
  isShuttingDown s = true -> provider s = None ->
  isShuttingDown (ethStep s e) = true /\ provider (ethStep s e) = None.
Proof.
  intros Hs Hp. destruct e; cbn [ethStep];
    unfold handleReconnect, onBlock, reconnectTimerFires, onModuleDestroy;
    cbn; rewrite ?Hs; cbn; auto.
Qed.

(** Once [onModuleDestroy] has run, no later event (error, block, timer,
    destroy) schedules a reconnect or brings a provider back. *)
Theorem shutdown_is_final (s : EthState) (es : list EthEvent) :
  runDelays (onModuleDestroy s) es = [] /\ provider (ethRun (onModuleDestroy s) es) = None.
Proof.
  assert (H : forall t, isShuttingDown t = true -> provider t = None ->
                runDelays t es = [] /\ provider (ethRun t es) = None).
  { induction es as [|e es IH]; intros t Hs Hp; [split; [reflexivity|exact Hp]|].
    destruct (ethStep_shut t e Hs Hp) as [Hs' Hp'].
    destruct (IH _ Hs' Hp') as [H1 H2]. simpl. rewrite Hs. simpl.
    split; [|exact H2]. rewrite H1, app_nil_r. destruct e; reflexivity. }
  apply H; reflexivity.
Qed.

(** A burst of error events while connected collapses into one scheduled
    reconnect, with the delay of the first. *)
Theorem error_burst_single_reconnect (s : EthState) (k : nat) :
  isShuttingDown s = false -> isReconnecting s = false ->
  runDelays s (repeat ProviderError (S k)) =
    [Z.min MAX_BACKOFF_MS (BASE_BACKOFF_MS * 2 ^ reconnectAttempts s)].
Proof.
  intros Hs Hr.
  assert (H : forall t, isReconnecting t = true -> runDelays t (repeat ProviderError k) = []).
  { induction k as [|k IH]; intros t Ht; [reflexivity|].
    cbn [repeat runDelays ethStep]. rewrite Ht, orb_true_r.
    assert (Et : handleReconnect t = t)
      by (unfold handleReconnect; rewrite Ht, orb_true_r; reflexivity).
    rewrite Et, (IH t Ht). reflexivity. }
  cbn [repeat runDelays ethStep]. rewrite Hs, Hr. cbn [orb].
  assert (E1 : scheduledBackoff (handleReconnect s) =
               Some (Z.min MAX_BACKOFF_MS (BASE_BACKOFF_MS * 2 ^ reconnectAttempts s)))
    by (unfold handleReconnect; rewrite Hs, Hr; reflexivity).
  assert (E2 : isReconnecting (handleReconnect s) = true)
    by (unfold handleReconnect; rewrite Hs, Hr; reflexivity).
  rewrite E1, (H _ E2). reflexivity.
Qed.

Lemma error_burst_single_reconnect_witness :
  runDelays ethInit [ProviderError; ProviderError; ProviderError] = [1000].
Proof. exact (error_burst_single_reconnect ethInit 2 eq_refl eq_refl). Defined.

Lemma attempts_nonneg_step (s : EthState) (e : EthEvent) :
  0 <= reconnectAttempts s -> 0 <= reconnectAttempts (ethStep s e).
Proof.
  intros H. destruct e; simpl; try lia.
  - unfold handleReconnect. destruct (isShuttingDown s || isReconnecting s); simpl; lia.
  - unfold reconnectTimerFires. destruct (isShuttingDown s); simpl; lia.
Qed.

(** Along any run from startup every scheduled reconnect delay lies between
    1000 ms and 30000 ms. *)
Theorem backoff_bounded (es : list EthEvent) (d : Z) :
  In d (runDelays ethInit es) -> 1000 <= d <= 30000.
Proof.
  assert (H : forall t, 0 <= reconnectAttempts t -> In d (runDelays t es) -> 1000 <= d <= 30000).
  { induction es as [|e es IH]; intros t Ht Hin; [destruct Hin|].
    simpl in Hin. apply in_app_or in Hin as [Hin|Hin].
    - destruct e; try destruct Hin.
      destruct (isShuttingDown t || isReconnecting t) eqn:G; [destruct Hin|].
      unfold ethStep, handleReconnect in Hin. rewrite G in Hin. simpl in Hin.
      destruct Hin as [<-|[]].
      pose proof (Z.pow_pos_nonneg 2 (reconnectAttempts t) ltac:(lia) Ht).
      unfold MAX_BACKOFF_MS, BASE_BACKOFF_MS. lia.
    - exact (IH _ (attempts_nonneg_step t e Ht) Hin). }
  apply H. simpl. lia.
Qed.

Lemma backoff_bounded_witness : 1000 <= 2000 <= 30000.
Proof.
  apply (backoff_bounded [ProviderError; TimerFires; ProviderError] 2000).
  vm_compute. right. left. reflexivity.
Defined.

(** Along any run from startup, while a reconnect is in flight there is no
    provider: [getProvider()] returns [undefined] during a reconnect. *)
Theorem no_provider_while_reconnecting (es : list EthEvent) :
  isReconnecting (ethRun ethInit es) = true -> provider (ethRun ethInit es) = None.
Proof.
  assert (H : forall t, (isReconnecting t = true -> provider t = None) ->
                isReconnecting (ethRun t es) = true -> provider (ethRun t es) = None).
  { induction es as [|e es IH]; intros t Ht; [exact Ht|].
    apply IH. destruct e; simpl.
    - unfold handleReconnect. destruct (isShuttingDown t || isReconnecting t); simpl;
        [exact Ht | reflexivity].
    - exact Ht.
    - unfold reconnectTimerFires. destruct (isShuttingDown t); simpl; discriminate.
    - reflexivity. }
  apply H. discriminate.
Qed.

Lemma no_provider_while_reconnecting_witness :
  provider (ethRun ethInit [ProviderError]) = None.
Proof. apply (no_provider_while_reconnecting [ProviderError]). reflexivity. Defined.

End EthExtra.
